(** * termi-pics: the authentication routes of the server

    A shallow embedding of [server/app/routes/auth.py] and
    [server/app/utils/supabase.py].  Handlers are computations in a small
    state-and-exception monad over a [World] holding the credential table,
    the wall clock and a ghost trace of every interaction with a
    collaborator.  Python's [with] statement is modelled with the protocol
    check the interpreter performs. *)

From Stdlib Require Import String Ascii List ZArith NArith Bool Arith Lia.
Import ListNotations.
Local Open Scope string_scope.

(** ** Python values the routes manipulate *)

Definition UserUid := nat.

Definition opt_string_eqb (a b : option string) : bool :=
  match a, b with
  | Some x, Some y => String.eqb x y
  | None, None => true
  | _, _ => false
  end.

(** A JSON object / Python dict with string values, and [d.get(k)]. *)
Definition Dict := list (string * string).

Fixpoint dict_get (d : Dict) (k : string) : option string :=
  match d with
  | [] => None
  | (k', v) :: d' => if String.eqb k' k then Some v else dict_get d' k
  end.

(** [s.split(sep)[0]]: the text before the first occurrence of [sep]
    (all of [s] when [sep] does not occur). *)
Fixpoint split_head (sep : ascii) (s : string) : string :=
  match s with
  | EmptyString => EmptyString
  | String c rest => if Ascii.eqb c sep then EmptyString else String c (split_head sep rest)
  end.

(** ** Exceptions *)

Inductive TokenErrorKind := InvalidToken | ExpiredToken | MalformedToken.

Inductive PyExn :=
| HTTPException (status_code : nat) (detail : string)
| TypeError (msg : string)
| AttributeError (msg : string)
| HTTPStatusError (status_code : nat)
| TransportError
| JSONDecodeError
| ValueError
| UnknownDatabaseProvider (msg : string)
| NameError (msg : string)
| LookupError
| TokenError (kind : TokenErrorKind).

Inductive Outcome (A : Type) :=
| Ok (a : A)
| Raise (e : PyExn).
Arguments Ok {A} a.
Arguments Raise {A} e.

(** ** The world: credential table, clock, ghost trace *)

Record UserRecord := mkUser {
  rec_user_uid : UserUid;
  rec_email : string;
  rec_username : string;
  rec_password : option string;
  rec_auth_provider : string;
  rec_avatar : option string;
  rec_last_active : Z
}.

Inductive Event :=
| EvCreateClient (url key : string)
| EvIsEmailExists (email : option string) (auth_provider : string)
| EvIsUsernameExists (username : string) (auth_provider : string)
| EvGetUserCreds (email : string)
| EvGetUserUid (email : option string) (auth_provider : string)
| EvInsertNewUser (user_uid : UserUid)
| EvUpdateLastActive (user_uid : UserUid)
| EvHttpPost (uri : string) (data : Dict)
| EvVerifyOAuth2Token (id_token_value : string)
| EvCreateAccessToken (user_uid : UserUid)
| EvCreateRefreshToken (user_uid : UserUid).

Record World := mkWorld {
  users : list UserRecord;
  clock : Z;
  trace : list Event
}.

Definition log (e : Event) (w : World) : World :=
  mkWorld (users w) (clock w) (trace w ++ [e]).

Definition set_users (us : list UserRecord) (w : World) : World :=
  mkWorld us (clock w) (trace w).

(** ** The monad of handlers *)

Definition M (A : Type) : Type := World -> Outcome A * World.

Definition ret {A} (a : A) : M A := fun w => (Ok a, w).

Definition raise {A} (e : PyExn) : M A := fun w => (Raise e, w).

Definition bind {A B} (c : M A) (k : A -> M B) : M B :=
  fun w =>
    match c w with
    | (Ok a, w') => k a w'
    | (Raise e, w') => (Raise e, w')
    end.

Declare Scope py_scope.
Delimit Scope py_scope with py.
Notation "x <- c ;; k" := (bind c (fun x => k))
  (at level 61, c at next level, right associativity) : py_scope.
Notation "c ;; k" := (bind c (fun _ => k))
  (at level 61, right associativity) : py_scope.
Local Open Scope py_scope.

Definition emit (e : Event) : M unit := fun w => (Ok tt, log e w).

(** ** The [with] statement

    A call of a generator function returns a generator object and runs none
    of its body.  The routes only ever use generators of the shape
    [setup; try: yield x; finally: cleanup], recorded as [GeneratorObj].
    A generator object has no [__enter__]/[__exit__]; only the wrapper made
    by [contextlib.contextmanager] has them. *)

Inductive PyManaged (A : Type) :=
| GeneratorObj (before_yield : M A) (finally_ : M unit)
| ContextManagerObj (enter : M A) (exit_ : M unit).
Arguments GeneratorObj {A} before_yield finally_.
Arguments ContextManagerObj {A} enter exit_.

(** [contextlib.contextmanager] applied to the generator: [__enter__] runs
    the generator up to its [yield], [__exit__] resumes it (or throws the
    pending exception into it), which runs the [finally] clause. *)
Definition contextmanager {A} (g : PyManaged A) : PyManaged A :=
  match g with
  | GeneratorObj before_yield finally_ => ContextManagerObj before_yield finally_
  | ContextManagerObj enter exit_ => ContextManagerObj enter exit_
  end.

(** The interpreter's message when the manager lacks the protocol. *)
Definition no_protocol : string :=
  "'generator' object does not support the context manager protocol".

(** [with mgr as x: body].  The interpreter first looks up [__enter__] and
    [__exit__] on the manager and raises [TypeError] when they are absent;
    otherwise [__exit__] runs however the block ends. *)
Definition with_ {A B} (mgr : PyManaged A) (body : A -> M B) : M B :=
  match mgr with
  | GeneratorObj _ _ => raise (TypeError no_protocol)
  | ContextManagerObj enter exit_ =>
      fun w =>
        match enter w with
        | (Raise e, w1) => (Raise e, w1)
        | (Ok x, w1) =>
            match body x w1 with
            | (r, w2) =>
                match exit_ w2 with
                | (Ok _, w3) => (r, w3)
                | (Raise e, w3) => (Raise e, w3)
                end
            end
        end
  end.

(** ** Token codec *)

(** Modelled from the spec: the payload of a token of [app/utils/auth.py],
    which is not among the sources: the user identifier and an expiry. *)
Record Claims := mkClaims { claim_user_uid : UserUid; claim_exp : Z }.

(** Modelled from the spec: a token of [app/utils/auth.py] (not among the
    sources) is a signed, compact credential embedding the claims; a string
    that is structurally invalid carries none.  The wire string is
    identified with what it parses to. *)
Inductive Token :=
| Compact (claims : Claims) (signature : string)
| Unparseable (raw : string).

(** ** Schemas: the fields the routes read and build *)

Record SignupRequest := mkSignupRequest {
  su_email : string; su_username : string; su_password : string }.
Record SignupResponse := mkSignupResponse { sr_user_uid : UserUid }.
Record LoginRequest := mkLoginRequest { li_email : string; li_password : string }.
Record GoogleOAuthRequest := mkGoogleOAuthRequest { go_code : string }.
Record VerificationRequest := mkVerificationRequest { ve_token : Token }.
Record VerificationResponse := mkVerificationResponse { vr_user_uid : UserUid }.
Record RefreshRequest := mkRefreshRequest { rf_token : Token }.
Record AuthTokenResponse := mkAuthTokenResponse {
  access_token : Token; refresh_token_ : Token; at_user_uid : UserUid }.

(** ** Collaborator interfaces *)

Record Client := mkClient { client_url : string; client_key : string }.

(** What [get_user_creds] hands to [login]: the keys it indexes. *)
Record UserCreds := mkUserCreds { creds_password : option string; creds_user_uid : UserUid }.

(** The table-handler interface the routes call through [db_handler]. *)
Record DbHandler := mkDbHandler {
  is_email_exists : option string -> string -> M bool;
  is_username_exists : string -> string -> M bool;
  insert_new_user : string -> string -> option string -> string -> option string -> M UserUid;
  get_user_creds : string -> M (option UserCreds);
  get_user_uid : option string -> string -> M UserUid;
  update_last_active : UserUid -> M unit
}.

(** Outcome of the POST to the provider: no response at all, or a response
    with its status and its body: [Some d] for a JSON object with string
    values, [None] for a body that does not decode as JSON.  A body that
    decodes to another JSON value is not represented. *)
Inductive HttpResult :=
| ConnectFailed
| Responded (status_code : nat) (body : option Dict).

Record Response := mkResponse { resp_status : nat; resp_body : option Dict }.

(** FastAPI's status line for a handler outcome: the route's declared code
    on success, the code of an [HTTPException], 500 for anything else. *)
Definition http_status {A} (declared : nat) (o : Outcome A) : nat :=
  match o with
  | Ok _ => declared
  | Raise (HTTPException s _) => s
  | Raise _ => 500
  end.

(** The endpoints the router knows, with path and declared status. *)
Inductive Endpoint := EpSignup | EpLogin | EpGoogle | EpVerifyToken | EpRefreshToken.

Record Route := mkRoute { route_path : string; route_status : nat; route_endpoint : Endpoint }.

(** Toy primitives used to run the model on concrete inputs. *)
Definition toy_sign (key : string) (c : Claims) : string :=
  key ++ ":" ++ String (ascii_of_nat (claim_user_uid c)) "".
Definition toy_hash (plain : string) : string := "h(" ++ plain ++ ")".
Definition toy_verify (plain : string) (hashed : option string) : bool :=
  opt_string_eqb (Some (toy_hash plain)) hashed.
Definition toy_endpoint (uri : string) (data : Dict) : HttpResult :=
  match dict_get data "code" with
  | Some "good" => Responded 200 (Some [("id_token", "idt-alice")])
  | Some "anon" => Responded 200 (Some [("id_token", "idt-anon")])
  | Some "down" => ConnectFailed
  | _ => Responded 400 None
  end.
Definition toy_google (id_token_value audience : string) : option Dict :=
  if String.eqb id_token_value "idt-alice"
  then Some [("email", "alice@x.com"); ("picture", "http://pic/alice")]
  else if String.eqb id_token_value "idt-anon" then Some [("sub", "42")]
  else None.

Section AuthRoutes.

(** [app.config]: constants the code imports. *)
Variables SUPABASE_URL SUPABASE_KEY : string.
Variables GOOGLE_OAUTH_CLIENT_ID GOOGLE_OAUTH_CLIENT_SECRET : string.
Variable SECRET_KEY : string.
Variables ACCESS_TOKEN_EXPIRE REFRESH_TOKEN_EXPIRE : N.

(** Third-party primitives: the signature scheme of the token library,
    the password hasher, the provider's token endpoint and Google's
    verification of an identity assertion against an audience. *)
Variable sign : string -> Claims -> string.
Variable hash_password : string -> string.
Variable pwd_verify : string -> option string -> bool.
Variable token_endpoint : string -> Dict -> HttpResult.
Variable google_verify : string -> string -> option Dict.

(** *** [app/utils/supabase.py] *)

Definition create_client (url key : string) : M Client :=
  emit (EvCreateClient url key) ;; ret (mkClient url key).

(** [def supabase_client(): client = create_client(..); try: yield client;
    finally: pass], undecorated: a call yields a generator object. *)
Definition supabase_client (_ : unit) : PyManaged Client :=
  GeneratorObj (create_client SUPABASE_URL SUPABASE_KEY) (ret tt).

(** *** Token codec *)

(** Modelled from the spec: the common mechanism of [create_access_token]
    and [create_refresh_token] ([app/utils/auth.py], not among the
    sources): embed the user identifier and an expiry [ttl] from now, sign
    with the process-wide secret key. *)
Definition mint (now : Z) (ttl : N) (user_uid : UserUid) : Token :=
  let claims := mkClaims user_uid (now + Z.of_N ttl) in
  Compact claims (sign SECRET_KEY claims).

(** Modelled from the spec: the decision of [validate_token]
    ([app/utils/auth.py], not among the sources): [MalformedToken] if the
    token is structurally invalid, [InvalidToken] if the signature check
    fails, [ExpiredToken] if past expiry, the payload otherwise. *)
Definition check (now : Z) (token : Token) : Outcome Claims :=
  match token with
  | Unparseable _ => Raise (TokenError MalformedToken)
  | Compact claims signature =>
      if String.eqb signature (sign SECRET_KEY claims)
      then if (claim_exp claims <? now)%Z
           then Raise (TokenError ExpiredToken)
           else Ok claims
      else Raise (TokenError InvalidToken)
  end.

(** Modelled from the spec: [create_access_token] of [app/utils/auth.py]
    (not among the sources), the short-lived credential. *)
Definition create_access_token (user_uid : UserUid) : M Token :=
  fun w => (Ok (mint (clock w) ACCESS_TOKEN_EXPIRE user_uid),
            log (EvCreateAccessToken user_uid) w).

(** Modelled from the spec: [create_refresh_token] of [app/utils/auth.py]
    (not among the sources), same mechanism with the longer expiry. *)
Definition create_refresh_token (user_uid : UserUid) : M Token :=
  fun w => (Ok (mint (clock w) REFRESH_TOKEN_EXPIRE user_uid),
            log (EvCreateRefreshToken user_uid) w).

(** Modelled from the spec: [validate_token] of [app/utils/auth.py] (not
    among the sources), the check at the current time; no side effect. *)
Definition validate_token (token : Token) : M Claims :=
  fun w => (check (clock w) token, w).

(** Modelled from the spec: [verify_password] of [app/utils/auth.py] is
    not among the sources; it is the one-way comparison of a plaintext
    secret against a stored hash, delegated to the hashing primitive. *)
Definition verify_password (plain : string) (hashed : option string) : bool :=
  pwd_verify plain hashed.

(** *** Credential store *)

(** Modelled from the spec: the key of the existence check and of the uid
    lookup of [app/utils/db.py] (not among the sources): email within a
    provider.  No stored email equals Python's [None]. *)
Definition matches_email (email : option string) (auth_provider : string)
    (r : UserRecord) : bool :=
  opt_string_eqb email (Some (rec_email r)) && String.eqb (rec_auth_provider r) auth_provider.

(** Modelled from the spec: the key of the username check of
    [app/utils/db.py] (not among the sources): username within a provider. *)
Definition matches_username (username auth_provider : string) (r : UserRecord) : bool :=
  String.eqb (rec_username r) username && String.eqb (rec_auth_provider r) auth_provider.

(** Modelled from the spec: the new record's identifier in
    [app/utils/db.py] (not among the sources) is unique: here, above every
    identifier in the table. *)
Definition fresh_uid (us : list UserRecord) : UserUid :=
  S (fold_right Nat.max 0 (map rec_user_uid us)).

(** Modelled from the spec: the last-active touch of [app/utils/db.py]
    (not among the sources) on one record. *)
Definition touch (now : Z) (user_uid : UserUid) (r : UserRecord) : UserRecord :=
  if Nat.eqb (rec_user_uid r) user_uid
  then mkUser (rec_user_uid r) (rec_email r) (rec_username r) (rec_password r)
              (rec_auth_provider r) (rec_avatar r) now
  else r.

(** Modelled from the spec: [SupabaseTable] of [app/utils/db.py] is not
    among the sources.  It is a table of user records exposing existence
    checks by email or username within a provider, lookup by email,
    lookup of the uid by email and provider, insertion (hashing the
    password, returning a new unique uid) and the last-active touch. *)
Definition SupabaseTable (client : Client) : DbHandler := {|
  is_email_exists := fun email auth_provider w =>
    (Ok (existsb (matches_email email auth_provider) (users w)),
     log (EvIsEmailExists email auth_provider) w);
  is_username_exists := fun username auth_provider w =>
    (Ok (existsb (matches_username username auth_provider) (users w)),
     log (EvIsUsernameExists username auth_provider) w);
  insert_new_user := fun email username password auth_provider avatar w =>
    let user_uid := fresh_uid (users w) in
    let r := mkUser user_uid email username (option_map hash_password password)
                    auth_provider avatar (clock w) in
    (Ok user_uid, log (EvInsertNewUser user_uid) (set_users (users w ++ [r]) w));
  get_user_creds := fun email w =>
    (Ok (option_map (fun r => mkUserCreds (rec_password r) (rec_user_uid r))
           (find (fun r => String.eqb (rec_email r) email) (users w))),
     log (EvGetUserCreds email) w);
  get_user_uid := fun email auth_provider w =>
    (match find (matches_email email auth_provider) (users w) with
     | Some r => Ok (rec_user_uid r)
     | None => Raise LookupError
     end,
     log (EvGetUserUid email auth_provider) w);
  update_last_active := fun user_uid w =>
    (Ok tt, log (EvUpdateLastActive user_uid)
              (set_users (map (touch (clock w) user_uid) (users w)) w))
|}.

(** *** [app/routes/auth.py]: [POST /signup] *)

(** The block under [with db_client() as client:]. *)
Definition signup_scope (db_handler : Client -> DbHandler) (request : SignupRequest)
    (client : Client) : M UserUid :=
  let db := db_handler client in
  dup_email <- is_email_exists db (Some (su_email request)) "email" ;;
  if dup_email then raise (HTTPException 400 "Email already registered") else
  dup_username <- is_username_exists db (su_username request) "email" ;;
  if dup_username then raise (HTTPException 400 "Username already taken") else
  insert_new_user db (su_email request) (su_username request)
    (Some (su_password request)) "email" None.

(** [db_client] and [db_handler] are the module globals the handler reads. *)
Definition signup (db_client : unit -> PyManaged Client) (db_handler : Client -> DbHandler)
    (request : SignupRequest) : M SignupResponse :=
  user_uid <- with_ (db_client tt) (signup_scope db_handler request) ;;
  ret (mkSignupResponse user_uid).

(** *** [POST /login] *)

Definition login_scope (request : LoginRequest) (client : Client)
    : M (Token * Token * UserUid) :=
  let supabase := SupabaseTable client in
  user_creds <- get_user_creds supabase (li_email request) ;;
  match user_creds with
  | None => raise (HTTPException 404 "User not found")
  | Some creds =>
      if negb (verify_password (li_password request) (creds_password creds))
      then raise (HTTPException 401 "Incorrect password")
      else
        let user_uid := creds_user_uid creds in
        access <- create_access_token user_uid ;;
        refresh <- create_refresh_token user_uid ;;
        update_last_active supabase user_uid ;;
        ret (access, refresh, user_uid)
  end.

(** The handler with the expression [supabase_client()] named [mgr]. *)
Definition login_via (mgr : PyManaged Client) (request : LoginRequest)
    : M AuthTokenResponse :=
  r <- with_ mgr (login_scope request) ;;
  let '(access, refresh, user_uid) := r in
  ret (mkAuthTokenResponse access refresh user_uid).

Definition login (request : LoginRequest) : M AuthTokenResponse :=
  login_via (supabase_client tt) request.

(** *** [POST /google] *)

Definition http_post (uri : string) (data : Dict) : M Response :=
  emit (EvHttpPost uri data) ;;
  match token_endpoint uri data with
  | ConnectFailed => raise TransportError
  | Responded status_code body => ret (mkResponse status_code body)
  end.

(** [httpx]: [raise_for_status] lets 2xx through and raises for the rest. *)
Definition is_success (status_code : nat) : bool :=
  (200 <=? status_code)%nat && (status_code <? 300)%nat.

Definition raise_for_status (response : Response) : M unit :=
  if is_success (resp_status response) then ret tt
  else raise (HTTPStatusError (resp_status response)).

Definition json (response : Response) : M Dict :=
  match resp_body response with
  | Some d => ret d
  | None => raise JSONDecodeError
  end.

(** The verifier hands back the verified claims or rejects the assertion
    with [ValueError]; its other failures (such as not reaching Google's
    certificates) are not represented. *)
Definition verify_oauth2_token (id_token_value audience : string) : M Dict :=
  emit (EvVerifyOAuth2Token id_token_value) ;;
  match google_verify id_token_value audience with
  | Some id_info => ret id_info
  | None => raise ValueError
  end.

Definition token_request_uri : string := "https://oauth2.googleapis.com/token".

Definition token_request_data (request : GoogleOAuthRequest) : Dict :=
  [ ("code", go_code request);
    ("client_id", GOOGLE_OAUTH_CLIENT_ID);
    ("client_secret", GOOGLE_OAUTH_CLIENT_SECRET);
    ("redirect_uri", "postmessage");
    ("grant_type", "authorization_code") ].

(** The block under [with supabase_client() as client:]. *)
Definition google_scope (email : option string) (id_info : Dict) (client : Client)
    : M UserUid :=
  let supabase := SupabaseTable client in
  known <- is_email_exists supabase email "google" ;;
  if known then
    user_uid <- get_user_uid supabase email "google" ;;
    update_last_active supabase user_uid ;;
    ret user_uid
  else
    match email with
    | None => raise (AttributeError "'NoneType' object has no attribute 'split'")
    | Some e =>
        let username := split_head "@" e in
        insert_new_user supabase e username None "google" (dict_get id_info "picture")
    end.

(** Everything after the exchange: from the verified claims to the reply. *)
Definition google_after_exchange (mgr : PyManaged Client) (id_info : Dict)
    : M AuthTokenResponse :=
  let email := dict_get id_info "email" in
  user_uid <- with_ mgr (google_scope email id_info) ;;
  access <- create_access_token user_uid ;;
  refresh <- create_refresh_token user_uid ;;
  ret (mkAuthTokenResponse access refresh user_uid).

(** The handler with the expression [supabase_client()] named [mgr]. *)
Definition continue_with_google_via (mgr : PyManaged Client) (request : GoogleOAuthRequest)
    : M AuthTokenResponse :=
  let data := token_request_data request in
  token_response <-
    (response <- http_post token_request_uri data ;;
     raise_for_status response ;;
     json response) ;;
  let id_token_value := dict_get token_response "id_token" in
  match id_token_value with
  | None => raise (HTTPException 400 "Missing id_token in response.")
  | Some v =>
      if String.eqb v "" then raise (HTTPException 400 "Missing id_token in response.")
      else
        id_info <- verify_oauth2_token v GOOGLE_OAUTH_CLIENT_ID ;;
        google_after_exchange mgr id_info
  end.

Definition continue_with_google (request : GoogleOAuthRequest) : M AuthTokenResponse :=
  continue_with_google_via (supabase_client tt) request.

(** The POST to the token endpoint succeeded: a response arrived and
    [raise_for_status] lets it through. *)
Definition exchange_succeeds (request : GoogleOAuthRequest) : bool :=
  match token_endpoint token_request_uri (token_request_data request) with
  | ConnectFailed => false
  | Responded status_code _ => is_success status_code
  end.

(** The exceptions [httpx] raises for a failed exchange. *)
Definition provider_exchange_failed (e : PyExn) : bool :=
  match e with
  | TransportError | HTTPStatusError _ => true
  | _ => false
  end.

(** *** [POST /verify-token] and [POST /refresh-token/] *)

Definition verify_token (request : VerificationRequest) : M VerificationResponse :=
  payload <- validate_token (ve_token request) ;;
  let user_uid := claim_user_uid payload in
  ret (mkVerificationResponse user_uid).

Definition refresh_token (request : RefreshRequest) : M AuthTokenResponse :=
  payload <- validate_token (rf_token request) ;;
  let user_uid := claim_user_uid payload in
  access <- create_access_token user_uid ;;
  let refresh := rf_token request in
  ret (mkAuthTokenResponse access refresh user_uid).

(** *** Module initialisation

    The module body runs top to bottom over the module namespace: the
    [match] on [DATABASE_PROVIDER], then [router = APIRouter()], then one
    registration per decorated handler.  A raise stops it there. *)

Record Namespace := mkNamespace {
  ns_db_client : option (unit -> PyManaged Client);
  ns_db_handler : option (Client -> DbHandler);
  ns_router : option (list Route)
}.

Definition empty_namespace : Namespace := mkNamespace None None None.

Definition ModuleStep := Namespace -> Outcome unit * Namespace.

Definition and_then (s1 s2 : ModuleStep) : ModuleStep :=
  fun ns =>
    match s1 ns with
    | (Ok _, ns') => s2 ns'
    | (Raise e, ns') => (Raise e, ns')
    end.

(** The f-string rendering of the configured value; [None] is a provider
    that was never set. *)
Definition render (v : option string) : string :=
  match v with
  | Some s => s
  | None => "None"
  end.

Definition select_backend (DATABASE_PROVIDER : option string) : ModuleStep :=
  fun ns =>
    if opt_string_eqb DATABASE_PROVIDER (Some "supabase")
    then (Ok tt, mkNamespace (Some supabase_client) (Some SupabaseTable) (ns_router ns))
    else (Raise (UnknownDatabaseProvider
                   ("Unknown database provider: " ++ render DATABASE_PROVIDER)), ns).

Definition new_router : ModuleStep :=
  fun ns => (Ok tt, mkNamespace (ns_db_client ns) (ns_db_handler ns) (Some [])).

Definition post (path : string) (status_code : nat) (ep : Endpoint) : ModuleStep :=
  fun ns =>
    match ns_router ns with
    | Some routes =>
        (Ok tt, mkNamespace (ns_db_client ns) (ns_db_handler ns)
                  (Some (routes ++ [mkRoute path status_code ep])%list))
    | None => (Raise (NameError "name 'router' is not defined"), ns)
    end.

Definition auth_module (DATABASE_PROVIDER : option string) : Outcome unit * Namespace :=
  and_then (select_backend DATABASE_PROVIDER)
    (and_then new_router
    (and_then (post "/signup" 201 EpSignup)
    (and_then (post "/login" 200 EpLogin)
    (and_then (post "/google" 201 EpGoogle)
    (and_then (post "/verify-token" 200 EpVerifyToken)
              (post "/refresh-token/" 200 EpRefreshToken))))))
    empty_namespace.

(** Whether the module, once loaded, serves an endpoint at all. *)
Definition serves (ns : Namespace) (ep : Endpoint) : bool :=
  match ns_router ns with
  | Some routes =>
      existsb (fun r => match route_endpoint r, ep with
                        | EpSignup, EpSignup | EpLogin, EpLogin | EpGoogle, EpGoogle
                        | EpVerifyToken, EpVerifyToken | EpRefreshToken, EpRefreshToken => true
                        | _, _ => false
                        end) routes
  | None => false
  end.



(** The client factory as [contextlib.contextmanager] would make it; the
    source does not apply the decorator, the lemmas on it say what each
    handler's block does once a scope is entered. *)
Definition managed_client (_ : unit) : PyManaged Client :=
  contextmanager (supabase_client tt).

(** The record [insert_new_user] appends. *)
Definition new_record (w : World) (email username : string) (password : option string)
    (auth_provider : string) (avatar : option string) : UserRecord :=
  mkUser (fresh_uid (users w)) email username (option_map hash_password password)
         auth_provider avatar (clock w).

(** What the duplicate checks are there to keep: no two records share a
    uid, no two share email and provider, and no two email-provider records
    share a username. *)
Definition account_key (r : UserRecord) : string * string :=
  (rec_email r, rec_auth_provider r).

Definition email_usernames (us : list UserRecord) : list string :=
  map rec_username (filter (fun r => String.eqb (rec_auth_provider r) "email") us).

Definition unique_accounts (us : list UserRecord) : Prop :=
  NoDup (map rec_user_uid us) /\ NoDup (map account_key us) /\ NoDup (email_usernames us).

(** Everything in a record but its last-active stamp. *)
Definition credentials (r : UserRecord)
    : UserUid * string * string * option string * string * option string :=
  (rec_user_uid r, rec_email r, rec_username r, rec_password r,
   rec_auth_provider r, rec_avatar r).

(** ** Properties *)

(** Unfold the monad's plumbing in the goal. *)
Ltac run_m := cbv beta iota zeta delta [bind ret raise emit].

(** The same, through the calls on the table handler and the codec. *)
Ltac run_store :=
  run_m;
  cbn [SupabaseTable is_email_exists is_username_exists insert_new_user
       get_user_creds get_user_uid update_last_active option_map negb
       creds_password creds_user_uid];
  unfold create_access_token, create_refresh_token;
  run_m.

(** Flatten the final world to its three components. *)
Ltac flat_world :=
  unfold log, set_users; cbn [users clock trace]; rewrite <- ?app_assoc; cbn [app].

(** *** The [with] protocol *)

Lemma with_generator {A B} (setup : M A) (cleanup : M unit) (body : A -> M B) (w : World) :
  with_ (GeneratorObj setup cleanup) body w = (Raise (TypeError no_protocol), w).
Proof. reflexivity. Qed.

Lemma with_supabase_client {B} (body : Client -> M B) (w : World) :
  with_ (supabase_client tt) body w = (Raise (TypeError no_protocol), w).
Proof. apply with_generator. Qed.

(** Under [contextlib.contextmanager] the block runs on a fresh client and
    the [finally] clause, which is [pass], leaves its outcome alone. *)
Lemma with_managed_client {B} (body : Client -> M B) (w : World) :
  with_ (contextmanager (supabase_client tt)) body w =
  body (mkClient SUPABASE_URL SUPABASE_KEY) (log (EvCreateClient SUPABASE_URL SUPABASE_KEY) w).
Proof.
  unfold with_, contextmanager, supabase_client, create_client, bind, emit, ret.
  destruct (body _ _) as [r w2]. destruct r; reflexivity.
Qed.

(** A scope made by [contextmanager] runs the [finally] clause on every
    way out of the block, normal or exceptional. *)
Lemma managed_scope_always_finalises {A B} (setup : M A) (cleanup : M unit)
    (body : A -> M B) (w w1 w2 : World) (x : A) (r : Outcome B) :
  setup w = (Ok x, w1) ->
  body x w1 = (r, w2) ->
  with_ (contextmanager (GeneratorObj setup cleanup)) body w =
  match cleanup w2 with
  | (Ok _, w3) => (r, w3)
  | (Raise e, w3) => (Raise e, w3)
  end.
Proof.
  intros Hs Hb. unfold with_, contextmanager. rewrite Hs, Hb. reflexivity.
Qed.

(** *** Token codec *)

Lemma check_mint (now later : Z) (ttl : N) (u : UserUid) :
  (later <= now + Z.of_N ttl)%Z ->
  check later (mint now ttl u) = Ok (mkClaims u (now + Z.of_N ttl)).
Proof.
  intros Hle. unfold check, mint. rewrite String.eqb_refl. cbn [claim_exp].
  destruct (Z.ltb_spec (now + Z.of_N ttl) later) as [Hlt | _]; [lia | reflexivity].
Qed.

Lemma check_mint_now (now : Z) (ttl : N) (u : UserUid) :
  check now (mint now ttl u) = Ok (mkClaims u (now + Z.of_N ttl)).
Proof. apply check_mint. lia. Qed.

(** C1: a freshly created access token validates, its payload carries the
    user identifier it was created for, and [/verify-token] answers with
    that identifier. *)
Theorem verify_token_roundtrip (u : UserUid) (w : World) :
  let exp := (clock w + Z.of_N ACCESS_TOKEN_EXPIRE)%Z in
  let w' := log (EvCreateAccessToken u) w in
  (access <- create_access_token u ;; validate_token access) w
    = (Ok (mkClaims u exp), w') /\
  claim_user_uid (mkClaims u exp) = u /\
  (access <- create_access_token u ;; verify_token (mkVerificationRequest access)) w
    = (Ok (mkVerificationResponse u), w').
Proof.
  cbn zeta. unfold bind, create_access_token, verify_token, validate_token, bind, ret.
  cbn [ve_token clock log]. rewrite check_mint_now. repeat split.
Qed.

(** C2: on a refresh token that validates to [u], [/refresh-token/]
    answers with an access token minted by this very call, the presented
    token unchanged, and [u]; the new access token validates to [u] on
    its own. *)
Theorem refresh_token_echoes (t : Token) (u : UserUid) (exp : Z) (w : World) :
  validate_token t w = (Ok (mkClaims u exp), w) ->
  let access := mint (clock w) ACCESS_TOKEN_EXPIRE u in
  let w' := log (EvCreateAccessToken u) w in
  refresh_token (mkRefreshRequest t) w = (Ok (mkAuthTokenResponse access t u), w') /\
  create_access_token u w = (Ok access, w') /\
  validate_token access w' = (Ok (mkClaims u (clock w + Z.of_N ACCESS_TOKEN_EXPIRE)), w') /\
  verify_token (mkVerificationRequest access) w' = (Ok (mkVerificationResponse u), w').
Proof.
  intros Hvalid. cbn zeta.
  unfold refresh_token, verify_token, bind. cbn [rf_token ve_token].
  rewrite Hvalid. cbn [claim_user_uid].
  unfold create_access_token, validate_token, ret. cbn [clock log].
  rewrite check_mint_now. repeat split.
Qed.

(** *** Module initialisation *)

Lemma opt_string_eqb_eq (a b : option string) : opt_string_eqb a b = true <-> a = b.
Proof.
  destruct a as [x|], b as [y|]; cbn; split; intros H;
    try discriminate; try reflexivity.
  - apply String.eqb_eq in H. now subst.
  - injection H as ->. apply String.eqb_refl.
Qed.

Lemma serves_loaded (ep : Endpoint) :
  serves (snd (auth_module (Some "supabase"))) ep = true.
Proof. destruct ep; reflexivity. Qed.

(** C10: with any provider other than "supabase" the module body raises
    [UnknownDatabaseProvider] at the [match], before the router exists, and
    serves no endpoint; with "supabase" it loads, binding [db_client] to
    [supabase_client] and [db_handler] to [SupabaseTable], and serves all
    five endpoints. *)
Theorem auth_module_backend_switch (DATABASE_PROVIDER : option string) :
  (DATABASE_PROVIDER <> Some "supabase" ->
     auth_module DATABASE_PROVIDER =
       (Raise (UnknownDatabaseProvider
                 ("Unknown database provider: " ++ render DATABASE_PROVIDER)),
        empty_namespace) /\
     ns_router (snd (auth_module DATABASE_PROVIDER)) = None /\
     forall ep, serves (snd (auth_module DATABASE_PROVIDER)) ep = false) /\
  (DATABASE_PROVIDER = Some "supabase" ->
     fst (auth_module DATABASE_PROVIDER) = Ok tt /\
     ns_db_client (snd (auth_module DATABASE_PROVIDER)) = Some supabase_client /\
     ns_db_handler (snd (auth_module DATABASE_PROVIDER)) = Some SupabaseTable /\
     forall ep, serves (snd (auth_module DATABASE_PROVIDER)) ep = true).
Proof.
  split.
  - intros Hother.
    assert (Hne : opt_string_eqb DATABASE_PROVIDER (Some "supabase") = false).
    { destruct (opt_string_eqb _ _) eqn:E; [| reflexivity].
      apply opt_string_eqb_eq in E. contradiction. }
    assert (Hrun : auth_module DATABASE_PROVIDER =
              (Raise (UnknownDatabaseProvider
                        ("Unknown database provider: " ++ render DATABASE_PROVIDER)),
               empty_namespace)).
    { unfold auth_module, and_then at 1, select_backend. now rewrite Hne. }
    rewrite Hrun. repeat split.
  - intros ->. repeat split. apply serves_loaded.
Qed.

(** *** [POST /google]: the exchange *)

(** C8: when the POST to the token endpoint does not succeed, the handler
    stops with the [httpx] exception of the failed exchange; the only
    interaction recorded is the POST itself, so no assertion was verified,
    the table is as it was and no token was minted. *)
Theorem continue_with_google_exchange_failed (request : GoogleOAuthRequest) (w : World) :
  exchange_succeeds request = false ->
  exists e w',
    continue_with_google request w = (Raise e, w') /\
    provider_exchange_failed e = true /\
    users w' = users w /\
    trace w' = (trace w ++ [EvHttpPost token_request_uri (token_request_data request)])%list.
Proof.
  unfold exchange_succeeds. intros Hfail.
  unfold continue_with_google, continue_with_google_via, bind, http_post, emit, bind.
  destruct (token_endpoint token_request_uri (token_request_data request))
    as [| status_code body] eqn:Hpost.
  - exists TransportError. eexists. unfold raise. repeat split.
  - exists (HTTPStatusError status_code). eexists.
    unfold ret, raise_for_status. cbn [resp_status]. rewrite Hfail.
    unfold raise. repeat split.
Qed.

(** Once the exchange and the verification went through, the handler
    continues with the verified claims. *)
Lemma google_exchange_ok (mgr : PyManaged Client) (request : GoogleOAuthRequest) (w : World)
    (status_code : nat) (body id_info : Dict) (v : string) :
  token_endpoint token_request_uri (token_request_data request)
    = Responded status_code (Some body) ->
  is_success status_code = true ->
  dict_get body "id_token" = Some v ->
  String.eqb v "" = false ->
  google_verify v GOOGLE_OAUTH_CLIENT_ID = Some id_info ->
  continue_with_google_via mgr request w =
  google_after_exchange mgr id_info
    (log (EvVerifyOAuth2Token v)
       (log (EvHttpPost token_request_uri (token_request_data request)) w)).
Proof.
  intros Hpost Hok Hid Hne Hver.
  unfold continue_with_google_via, http_post. run_m. rewrite Hpost.
  unfold raise_for_status, json. cbn [resp_status resp_body]. rewrite Hok. run_m.
  rewrite Hid, Hne. unfold verify_oauth2_token. run_m. rewrite Hver. reflexivity.
Qed.

(** *** What the handlers do as written

    [supabase_client()] is a generator object, so the [with] statement of
    each handler raises before its block starts. *)

Lemma signup_TypeError (db_handler : Client -> DbHandler) (request : SignupRequest)
    (w : World) :
  signup supabase_client db_handler request w = (Raise (TypeError no_protocol), w).
Proof. unfold signup, bind. now rewrite with_supabase_client. Qed.

Lemma login_TypeError (request : LoginRequest) (w : World) :
  login request w = (Raise (TypeError no_protocol), w).
Proof. unfold login, login_via, bind. now rewrite with_supabase_client. Qed.

Lemma google_after_exchange_TypeError (id_info : Dict) (w : World) :
  google_after_exchange (supabase_client tt) id_info w = (Raise (TypeError no_protocol), w).
Proof. unfold google_after_exchange, bind. now rewrite with_supabase_client. Qed.

(** *** [POST /signup] inside an entered scope *)

Lemma fresh_uid_above (us : list UserRecord) (r : UserRecord) :
  In r us -> rec_user_uid r < fresh_uid us.
Proof.
  unfold fresh_uid. induction us as [| r' us IH]; cbn [In map fold_right].
  - contradiction.
  - intros [-> | Hin]; [lia | specialize (IH Hin); lia].
Qed.

Lemma fresh_uid_new (us : list UserRecord) :
  ~ In (fresh_uid us) (map rec_user_uid us).
Proof.
  intros Hin. apply in_map_iff in Hin as [r [Heq Hr]].
  apply fresh_uid_above in Hr. lia.
Qed.

Lemma managed_signup_duplicate_email (request : SignupRequest) (w : World) :
  existsb (matches_email (Some (su_email request)) "email") (users w) = true ->
  signup managed_client SupabaseTable request w =
  (Raise (HTTPException 400 "Email already registered"),
   mkWorld (users w) (clock w)
     (trace w ++ [EvCreateClient SUPABASE_URL SUPABASE_KEY;
                  EvIsEmailExists (Some (su_email request)) "email"])).
Proof.
  intros Hdup. unfold signup, managed_client. run_m. rewrite with_managed_client.
  unfold signup_scope. run_store. cbn [users log]. rewrite Hdup. now flat_world.
Qed.

Lemma managed_signup_duplicate_username (request : SignupRequest) (w : World) :
  existsb (matches_email (Some (su_email request)) "email") (users w) = false ->
  existsb (matches_username (su_username request) "email") (users w) = true ->
  signup managed_client SupabaseTable request w =
  (Raise (HTTPException 400 "Username already taken"),
   mkWorld (users w) (clock w)
     (trace w ++ [EvCreateClient SUPABASE_URL SUPABASE_KEY;
                  EvIsEmailExists (Some (su_email request)) "email";
                  EvIsUsernameExists (su_username request) "email"])).
Proof.
  intros Hemail Hname. unfold signup, managed_client. run_m. rewrite with_managed_client.
  unfold signup_scope. run_store. cbn [users log]. rewrite Hemail. run_store.
  cbn [users log]. rewrite Hname. now flat_world.
Qed.

Lemma managed_signup_created (request : SignupRequest) (w : World) :
  existsb (matches_email (Some (su_email request)) "email") (users w) = false ->
  existsb (matches_username (su_username request) "email") (users w) = false ->
  signup managed_client SupabaseTable request w =
  (Ok (mkSignupResponse (fresh_uid (users w))),
   mkWorld
     (users w ++ [new_record w (su_email request) (su_username request)
                    (Some (su_password request)) "email" None])
     (clock w)
     (trace w ++ [EvCreateClient SUPABASE_URL SUPABASE_KEY;
                  EvIsEmailExists (Some (su_email request)) "email";
                  EvIsUsernameExists (su_username request) "email";
                  EvInsertNewUser (fresh_uid (users w))])).
Proof.
  intros Hemail Hname. unfold signup, managed_client. run_m. rewrite with_managed_client.
  unfold signup_scope. run_store. cbn [users log]. rewrite Hemail. run_store.
  cbn [users log]. rewrite Hname. run_store. unfold new_record. now flat_world.
Qed.

(** *** [POST /login] inside an entered scope *)

Lemma managed_login_not_found (request : LoginRequest) (w : World) :
  find (fun r => String.eqb (rec_email r) (li_email request)) (users w) = None ->
  login_via (managed_client tt) request w =
  (Raise (HTTPException 404 "User not found"),
   mkWorld (users w) (clock w)
     (trace w ++ [EvCreateClient SUPABASE_URL SUPABASE_KEY;
                  EvGetUserCreds (li_email request)])).
Proof.
  intros Hnone. unfold login_via, managed_client. run_m. rewrite with_managed_client.
  unfold login_scope. run_store. cbn [users log]. rewrite Hnone. run_store.
  now flat_world.
Qed.

Lemma managed_login_incorrect_password (request : LoginRequest) (w : World)
    (r : UserRecord) :
  find (fun r => String.eqb (rec_email r) (li_email request)) (users w) = Some r ->
  verify_password (li_password request) (rec_password r) = false ->
  login_via (managed_client tt) request w =
  (Raise (HTTPException 401 "Incorrect password"),
   mkWorld (users w) (clock w)
     (trace w ++ [EvCreateClient SUPABASE_URL SUPABASE_KEY;
                  EvGetUserCreds (li_email request)])).
Proof.
  intros Hfound Hbad. unfold login_via, managed_client. run_m. rewrite with_managed_client.
  unfold login_scope. run_store. cbn [users log]. rewrite Hfound. run_store.
  rewrite Hbad. run_store. now flat_world.
Qed.

Lemma managed_login_ok (request : LoginRequest) (w : World) (r : UserRecord) :
  find (fun r => String.eqb (rec_email r) (li_email request)) (users w) = Some r ->
  verify_password (li_password request) (rec_password r) = true ->
  login_via (managed_client tt) request w =
  (Ok (mkAuthTokenResponse
         (mint (clock w) ACCESS_TOKEN_EXPIRE (rec_user_uid r))
         (mint (clock w) REFRESH_TOKEN_EXPIRE (rec_user_uid r))
         (rec_user_uid r)),
   mkWorld (map (touch (clock w) (rec_user_uid r)) (users w)) (clock w)
     (trace w ++ [EvCreateClient SUPABASE_URL SUPABASE_KEY;
                  EvGetUserCreds (li_email request);
                  EvCreateAccessToken (rec_user_uid r);
                  EvCreateRefreshToken (rec_user_uid r);
                  EvUpdateLastActive (rec_user_uid r)])).
Proof.
  intros Hfound Hgood. unfold login_via, managed_client. run_m. rewrite with_managed_client.
  unfold login_scope. run_store. cbn [users log]. rewrite Hfound. run_store.
  rewrite Hgood. run_store. now flat_world.
Qed.

(** *** [POST /google] inside an entered scope *)

Lemma no_record_without_email (auth_provider : string) (us : list UserRecord) :
  existsb (matches_email None auth_provider) us = false.
Proof. induction us as [| r us IH]; [reflexivity | exact IH]. Qed.

Lemma find_some_existsb {A} (f : A -> bool) (l : list A) (x : A) :
  find f l = Some x -> existsb f l = true.
Proof.
  induction l as [| a l IH]; cbn [find existsb]; [discriminate |].
  destruct (f a); [reflexivity | exact IH].
Qed.

Lemma find_appended {A} (f : A -> bool) (l : list A) (x : A) :
  existsb f l = false -> f x = true -> find f (l ++ [x]) = Some x.
Proof.
  intros Hl Hx. induction l as [| a l IH]; cbn [app find existsb] in *.
  - now rewrite Hx.
  - destruct (f a); [discriminate | now apply IH].
Qed.

Lemma matches_email_touch (email : option string) (auth_provider : string)
    (now : Z) (user_uid : UserUid) (r : UserRecord) :
  matches_email email auth_provider (touch now user_uid r)
    = matches_email email auth_provider r.
Proof. unfold touch. now destruct (Nat.eqb _ _). Qed.

(** A touch changes neither who is found by email nor their uid. *)
Lemma find_touched (email : option string) (auth_provider : string)
    (now : Z) (user_uid : UserUid) (us : list UserRecord) :
  option_map rec_user_uid
    (find (matches_email email auth_provider) (map (touch now user_uid) us))
  = option_map rec_user_uid (find (matches_email email auth_provider) us).
Proof.
  induction us as [| r us IH]; [reflexivity |].
  cbn [map find]. rewrite matches_email_touch.
  destruct (matches_email email auth_provider r); [| exact IH].
  unfold touch. now destruct (Nat.eqb _ _).
Qed.

Lemma managed_google_missing_email (id_info : Dict) (w : World) :
  dict_get id_info "email" = None ->
  google_after_exchange (managed_client tt) id_info w =
  (Raise (AttributeError "'NoneType' object has no attribute 'split'"),
   mkWorld (users w) (clock w)
     (trace w ++ [EvCreateClient SUPABASE_URL SUPABASE_KEY;
                  EvIsEmailExists None "google"])).
Proof.
  intros Hnone. unfold google_after_exchange, managed_client. rewrite Hnone.
  run_m. rewrite with_managed_client. unfold google_scope. run_store.
  cbn [users log]. rewrite no_record_without_email. run_store. now flat_world.
Qed.

Lemma managed_google_first_login (id_info : Dict) (e : string) (w : World) :
  dict_get id_info "email" = Some e ->
  existsb (matches_email (Some e) "google") (users w) = false ->
  google_after_exchange (managed_client tt) id_info w =
  (Ok (mkAuthTokenResponse
         (mint (clock w) ACCESS_TOKEN_EXPIRE (fresh_uid (users w)))
         (mint (clock w) REFRESH_TOKEN_EXPIRE (fresh_uid (users w)))
         (fresh_uid (users w))),
   mkWorld
     (users w ++ [new_record w e (split_head "@" e) None "google"
                    (dict_get id_info "picture")])
     (clock w)
     (trace w ++ [EvCreateClient SUPABASE_URL SUPABASE_KEY;
                  EvIsEmailExists (Some e) "google";
                  EvInsertNewUser (fresh_uid (users w));
                  EvCreateAccessToken (fresh_uid (users w));
                  EvCreateRefreshToken (fresh_uid (users w))])).
Proof.
  intros Hemail Hnew. unfold google_after_exchange, managed_client. rewrite Hemail.
  run_m. rewrite with_managed_client. unfold google_scope. run_store.
  cbn [users log]. rewrite Hnew. run_store. unfold new_record. now flat_world.
Qed.

Lemma managed_google_known (id_info : Dict) (e : string) (r : UserRecord) (w : World) :
  dict_get id_info "email" = Some e ->
  find (matches_email (Some e) "google") (users w) = Some r ->
  google_after_exchange (managed_client tt) id_info w =
  (Ok (mkAuthTokenResponse
         (mint (clock w) ACCESS_TOKEN_EXPIRE (rec_user_uid r))
         (mint (clock w) REFRESH_TOKEN_EXPIRE (rec_user_uid r))
         (rec_user_uid r)),
   mkWorld (map (touch (clock w) (rec_user_uid r)) (users w)) (clock w)
     (trace w ++ [EvCreateClient SUPABASE_URL SUPABASE_KEY;
                  EvIsEmailExists (Some e) "google";
                  EvGetUserUid (Some e) "google";
                  EvUpdateLastActive (rec_user_uid r);
                  EvCreateAccessToken (rec_user_uid r);
                  EvCreateRefreshToken (rec_user_uid r)])).
Proof.
  intros Hemail Hfound. unfold google_after_exchange, managed_client. rewrite Hemail.
  run_m. rewrite with_managed_client. unfold google_scope. run_store.
  cbn [users log]. rewrite (find_some_existsb _ _ _ Hfound). run_store.
  cbn [users log]. rewrite Hfound. run_store. now flat_world.
Qed.

(** In an entered scope a second login with the same verified email finds
    the record the first one appended: same uid, same number of records. *)
Lemma managed_google_idempotent (id_info id_info' : Dict) (e : string) (w w1 w2 : World)
    (first second : AuthTokenResponse) :
  dict_get id_info "email" = Some e ->
  dict_get id_info' "email" = Some e ->
  existsb (matches_email (Some e) "google") (users w) = false ->
  google_after_exchange (managed_client tt) id_info w = (Ok first, w1) ->
  google_after_exchange (managed_client tt) id_info' w1 = (Ok second, w2) ->
  at_user_uid second = at_user_uid first /\
  length (users w1) = S (length (users w)) /\
  length (users w2) = length (users w1).
Proof.
  intros Hemail Hemail' Hnew Hfirst Hsecond.
  rewrite (managed_google_first_login _ _ _ Hemail Hnew) in Hfirst.
  injection Hfirst as <- <-.
  set (r := new_record w e (split_head "@" e) None "google" (dict_get id_info "picture")).
  assert (Hfound : find (matches_email (Some e) "google") (users w ++ [r]) = Some r).
  { apply find_appended; [exact Hnew |].
    unfold matches_email, r, new_record. cbn. now rewrite !String.eqb_refl. }
  rewrite (managed_google_known id_info' e r) in Hsecond by (cbn [users]; assumption).
  injection Hsecond as <- <-. cbn [at_user_uid users].
  repeat split; rewrite ?length_map, ?length_app; cbn [length]; lia.
Qed.

(** *** The scope around the store client *)


(** *** [POST /google]: the ways out of the handler before the scope *)

Lemma google_exchange_reaches_check (request : GoogleOAuthRequest) (w : World)
    (status_code : nat) (body : Dict) (k : option string -> M AuthTokenResponse) :
  token_endpoint token_request_uri (token_request_data request)
    = Responded status_code (Some body) ->
  is_success status_code = true ->
  (token_response <-
     (response <- http_post token_request_uri (token_request_data request) ;;
      raise_for_status response ;;
      json response) ;;
   k (dict_get token_response "id_token")) w
  = k (dict_get body "id_token")
      (log (EvHttpPost token_request_uri (token_request_data request)) w).
Proof.
  intros Hpost Hok. unfold http_post. run_m. rewrite Hpost.
  unfold raise_for_status, json. cbn [resp_status resp_body]. rewrite Hok. reflexivity.
Qed.

(** X1: a 2xx answer of the token endpoint whose JSON has no [id_token], or
    an empty one, is refused with 400 "Missing id_token in response."; the
    assertion verifier is not called and the table is not read. *)
Theorem google_missing_id_token (request : GoogleOAuthRequest) (w : World)
    (status_code : nat) (body : Dict) :
  token_endpoint token_request_uri (token_request_data request)
    = Responded status_code (Some body) ->
  is_success status_code = true ->
  dict_get body "id_token" = None \/ dict_get body "id_token" = Some "" ->
  continue_with_google request w =
  (Raise (HTTPException 400 "Missing id_token in response."),
   log (EvHttpPost token_request_uri (token_request_data request)) w).
Proof.
  intros Hpost Hok Hmissing.
  unfold continue_with_google, continue_with_google_via. cbv zeta.
  rewrite (google_exchange_reaches_check request w status_code body
             (fun id_token_value =>
                match id_token_value with
                | Some v => if String.eqb v "" then raise _ else _
                | None => raise _
                end) Hpost Hok).
  destruct Hmissing as [-> | ->]; reflexivity.
Qed.

(** X2: when Google's verifier rejects the assertion for the configured
    client id, the handler stops with the verifier's [ValueError] right
    after the verification: the table is not read, nothing is minted. *)
Theorem google_assertion_rejected (request : GoogleOAuthRequest) (w : World)
    (status_code : nat) (body : Dict) (v : string) :
  token_endpoint token_request_uri (token_request_data request)
    = Responded status_code (Some body) ->
  is_success status_code = true ->
  dict_get body "id_token" = Some v ->
  String.eqb v "" = false ->
  google_verify v GOOGLE_OAUTH_CLIENT_ID = None ->
  continue_with_google request w =
  (Raise ValueError,
   log (EvVerifyOAuth2Token v)
     (log (EvHttpPost token_request_uri (token_request_data request)) w)).
Proof.
  intros Hpost Hok Hid Hne Hver.
  unfold continue_with_google, continue_with_google_via, http_post. run_m. rewrite Hpost.
  unfold raise_for_status, json. cbn [resp_status resp_body]. rewrite Hok. run_m.
  rewrite Hid, Hne. unfold verify_oauth2_token. run_m. now rewrite Hver.
Qed.

(** X3: as the handler is written, a login whose exchange and verification
    both succeed still fails: whatever the verified claims are, the [with]
    statement on the generator raises [TypeError] right after the
    verification, before any access to the table. *)
Theorem google_verified_login_raises (request : GoogleOAuthRequest) (w : World)
    (status_code : nat) (body id_info : Dict) (v : string) :
  token_endpoint token_request_uri (token_request_data request)
    = Responded status_code (Some body) ->
  is_success status_code = true ->
  dict_get body "id_token" = Some v ->
  String.eqb v "" = false ->
  google_verify v GOOGLE_OAUTH_CLIENT_ID = Some id_info ->
  continue_with_google request w =
  (Raise (TypeError no_protocol),
   log (EvVerifyOAuth2Token v)
     (log (EvHttpPost token_request_uri (token_request_data request)) w)).
Proof.
  intros Hpost Hok Hid Hne Hver. unfold continue_with_google.
  rewrite (google_exchange_ok _ request w status_code body id_info v Hpost Hok Hid Hne Hver).
  apply google_after_exchange_TypeError.
Qed.

(** X4: a 2xx answer of the token endpoint whose body does not decode as
    JSON makes [response.json()] raise; the error leaves the handler with
    only the POST made: no [id_token] is looked for, the verifier is not
    called and the table is not read. *)
Theorem google_undecodable_body (request : GoogleOAuthRequest) (w : World)
    (status_code : nat) :
  token_endpoint token_request_uri (token_request_data request)
    = Responded status_code None ->
  is_success status_code = true ->
  continue_with_google request w =
  (Raise JSONDecodeError,
   log (EvHttpPost token_request_uri (token_request_data request)) w).
Proof.
  intros Hpost Hok.
  unfold continue_with_google, continue_with_google_via, http_post. run_m. rewrite Hpost.
  unfold raise_for_status, json. cbn [resp_status resp_body]. now rewrite Hok.
Qed.

(** *** The derived username: [email.split("@")[0]] *)

(** X5: the username derived from an email is the text before its first
    separator: it contains no separator, and the email is that text followed
    either by nothing or by the separator and the rest. *)
Theorem split_head_is_local_part (sep : ascii) (s : string) :
  (forall c, In c (list_ascii_of_string (split_head sep s)) -> c <> sep) /\
  exists rest,
    s = split_head sep s ++ rest /\ (rest = "" \/ exists r, rest = String sep r).
Proof.
  induction s as [| c s [IHfree [rest [IHcat IHrest]]]]; cbn [split_head].
  - split; [intros c [] |]. exists "". split; [reflexivity | now left].
  - destruct (Ascii.eqb_spec c sep) as [-> | Hne].
    + split; [intros c [] |]. exists (String sep s). split; [reflexivity |].
      right. now exists s.
    + split.
      * cbn [list_ascii_of_string In]. intros c' [<- | Hin]; [exact Hne | now apply IHfree].
      * exists rest. split; [| exact IHrest]. cbn [append]. now rewrite <- IHcat.
Qed.

(** X6: an email without any separator is taken whole as the username. *)
Theorem split_head_without_separator (sep : ascii) (s : string) :
  forallb (fun c => negb (Ascii.eqb c sep)) (list_ascii_of_string s) = true ->
  split_head sep s = s.
Proof.
  induction s as [| c s IH]; cbn [split_head list_ascii_of_string forallb];
    [reflexivity |].
  intros Hfree. apply andb_true_iff in Hfree as [Hc Hs].
  destruct (Ascii.eqb c sep); [discriminate |]. now rewrite IH.
Qed.

(** *** The token routes on a rejected token *)

(** X7: when validation raises, [/verify-token] and [/refresh-token/] raise
    the same exception in the same world: the error is not swallowed and no
    access token is minted. *)
Theorem token_routes_propagate_rejection (t : Token) (e : PyExn) (w w' : World) :
  validate_token t w = (Raise e, w') ->
  verify_token (mkVerificationRequest t) w = (Raise e, w') /\
  refresh_token (mkRefreshRequest t) w = (Raise e, w').
Proof.
  intros Hrejected. unfold verify_token, refresh_token. run_m.
  cbn [ve_token rf_token]. now rewrite Hrejected.
Qed.

(** *** What the blocks keep of the table *)

Lemma NoDup_snoc {A} (l : list A) (x : A) : NoDup l -> ~ In x l -> NoDup (l ++ [x]).
Proof.
  induction l as [| a l IH]; cbn [app]; intros Hnd Hx.
  - constructor; [intros [] | constructor].
  - inversion Hnd as [| ? ? Ha Hl]; subst. constructor.
    + rewrite in_app_iff. cbn [In]. intros [Hin | [-> | []]]; [contradiction |].
      apply Hx. now left.
    + apply IH; [assumption |]. intros Hin. apply Hx. now right.
Qed.

Lemma no_match_no_key (e p : string) (us : list UserRecord) :
  existsb (matches_email (Some e) p) us = false -> ~ In (e, p) (map account_key us).
Proof.
  induction us as [| r us IH]; cbn [existsb map In]; [intros _ [] |].
  intros Hnone. apply orb_false_iff in Hnone as [Hr Hus].
  intros [Heq | Hin]; [| now apply IH].
  unfold account_key in Heq. injection Heq as He Hp.
  unfold matches_email in Hr. cbn [opt_string_eqb] in Hr.
  now rewrite He, Hp, !String.eqb_refl in Hr.
Qed.

Lemma no_match_no_username (u : string) (us : list UserRecord) :
  existsb (matches_username u "email") us = false -> ~ In u (email_usernames us).
Proof.
  unfold email_usernames.
  induction us as [| r us IH]; cbn [existsb filter map In]; [intros _ [] |].
  intros Hnone. apply orb_false_iff in Hnone as [Hr Hus].
  unfold matches_username in Hr.
  destruct (String.eqb (rec_auth_provider r) "email"); [| now apply IH].
  cbn [map In]. intros [Heq | Hin]; [| now apply IH].
  now rewrite Heq, String.eqb_refl in Hr.
Qed.

Lemma credentials_touch (now : Z) (user_uid : UserUid) (r : UserRecord) :
  credentials (touch now user_uid r) = credentials r.
Proof. unfold touch. now destruct (Nat.eqb _ _). Qed.

Lemma credentials_touched (now : Z) (user_uid : UserUid) (us : list UserRecord) :
  map credentials (map (touch now user_uid) us) = map credentials us.
Proof.
  rewrite map_map. apply map_ext. intros r. apply credentials_touch.
Qed.

Lemma map_through_credentials {B} (f : _ -> B) (us us' : list UserRecord) :
  map credentials us' = map credentials us ->
  map (fun r => f (credentials r)) us' = map (fun r => f (credentials r)) us.
Proof. intros Hsame. rewrite <- !(map_map credentials f). now rewrite Hsame. Qed.

(** The three uniqueness lists are read off the credentials alone. *)
Lemma unique_accounts_credentials (us us' : list UserRecord) :
  map credentials us' = map credentials us -> unique_accounts us -> unique_accounts us'.
Proof.
  intros Hsame. unfold unique_accounts, email_usernames.
  assert (Huid : map rec_user_uid us' = map rec_user_uid us)
    by exact (map_through_credentials
                (fun c => fst (fst (fst (fst (fst c))))) us us' Hsame).
  assert (Hkey : map account_key us' = map account_key us)
    by exact (map_through_credentials
                (fun c => (snd (fst (fst (fst (fst c)))), snd (fst c))) us us' Hsame).
  assert (Hname :
    map rec_username (filter (fun r => String.eqb (rec_auth_provider r) "email") us')
    = map rec_username (filter (fun r => String.eqb (rec_auth_provider r) "email") us)).
  { clear Huid Hkey. revert us' Hsame.
    induction us as [| r us IH]; intros [| r' us']; cbn [map filter];
      try discriminate; [reflexivity |].
    intros Hsame. cbn [map] in Hsame.
    injection Hsame as _ _ Hu _ Hp _ Hrest. rewrite Hp.
    destruct (String.eqb (rec_auth_provider r) "email"); cbn [map];
      [rewrite Hu; f_equal |]; now apply IH. }
  now rewrite Huid, Hkey, Hname.
Qed.

(** X8: the block of [signup] keeps the accounts unique: after it, whatever
    the request and however it ended, no two records share a uid or an
    email within a provider, and no two email-provider records share a
    username. *)
Theorem signup_scope_keeps_unique (request : SignupRequest) (client : Client) (w : World) :
  unique_accounts (users w) ->
  unique_accounts (users (snd (signup_scope SupabaseTable request client w))).
Proof.
  intros Huniq. unfold signup_scope. run_store. cbn [users log].
  destruct (existsb (matches_email (Some (su_email request)) "email") (users w)) eqn:Hemail;
    run_store; [exact Huniq |].
  cbn [users log].
  destruct (existsb (matches_username (su_username request) "email") (users w)) eqn:Hname;
    run_store; [exact Huniq |].
  cbn [snd users log set_users].
  destruct Huniq as (Huid & Hkey & Huser). unfold unique_accounts, email_usernames.
  rewrite !map_app, filter_app, map_app.
  cbn [map filter rec_user_uid rec_auth_provider rec_username account_key rec_email String.eqb
       Ascii.eqb Bool.eqb].
  repeat split; apply NoDup_snoc; try assumption.
  - apply fresh_uid_new.
  - now apply no_match_no_key.
  - now apply no_match_no_username.
Qed.

(** X9: the block of [POST /google] keeps the accounts unique as well: a
    known email only gets a touch, an unknown one gets a "google" record
    with a fresh uid, which no username check concerns. *)
Theorem google_scope_keeps_unique (email : option string) (id_info : Dict)
    (client : Client) (w : World) :
  unique_accounts (users w) ->
  unique_accounts (users (snd (google_scope email id_info client w))).
Proof.
  intros Huniq. unfold google_scope. run_store. cbn [users log].
  destruct (existsb (matches_email email "google") (users w)) eqn:Hknown; run_store.
  - cbn [users log].
    destruct (find (matches_email email "google") (users w)) as [r |]; run_store;
      cbn [snd users log set_users]; [| exact Huniq].
    eapply unique_accounts_credentials; [apply credentials_touched | exact Huniq].
  - destruct email as [e |]; run_store; cbn [snd users log set_users]; [| exact Huniq].
    destruct Huniq as (Huid & Hkey & Huser). unfold unique_accounts, email_usernames.
    rewrite !map_app, filter_app.
    cbn [map filter rec_user_uid rec_auth_provider account_key rec_email].
    change (String.eqb "google" "email") with false. rewrite app_nil_r.
    repeat split; try assumption; apply NoDup_snoc; try assumption.
    + apply fresh_uid_new.
    + now apply no_match_no_key.
Qed.

(** X10: the block of [login] never creates, removes or rewrites an
    account: whatever the request and however it ends, every record keeps its
    uid, email, username, password hash, provider and avatar; only a
    last-active stamp can differ. *)
Theorem login_scope_keeps_credentials (request : LoginRequest) (client : Client) (w : World) :
  map credentials (users (snd (login_scope request client w))) = map credentials (users w).
Proof.
  unfold login_scope. run_store. cbn [users log].
  destruct (find (fun r => String.eqb (rec_email r) (li_email request)) (users w)) as [r |];
    run_store; [| reflexivity].
  destruct (verify_password (li_password request) (rec_password r)); run_store;
    [| reflexivity].
  cbn [snd users log set_users]. apply credentials_touched.
Qed.

(** X11: the block of [POST /google] never sets a password and never
    rewrites an existing account: the credentials after it are those before,
    followed by at most one new record, which has provider "google", no
    password, and the text before the first "@" of the email as username. *)
Theorem google_scope_appends_passwordless (email : option string) (id_info : Dict)
    (client : Client) (w : World) :
  exists added,
    map credentials (users (snd (google_scope email id_info client w)))
      = (map credentials (users w) ++ added)%list /\
    (added = [] \/
     exists e, email = Some e /\
       added = [(fresh_uid (users w), e, split_head "@" e, None, "google",
                 dict_get id_info "picture")]).
Proof.
  unfold google_scope. run_store. cbn [users log].
  destruct (existsb (matches_email email "google") (users w)); run_store.
  - exists []. rewrite app_nil_r. split; [| now left]. cbn [users log].
    destruct (find (matches_email email "google") (users w)) as [r |]; run_store;
      cbn [snd users log set_users]; [apply credentials_touched | reflexivity].
  - destruct email as [e |]; run_store; cbn [snd users log set_users].
    + eexists. rewrite map_app. split; [reflexivity |]. right. now exists e.
    + exists []. rewrite app_nil_r. split; [reflexivity | now left].
Qed.

(** *** How the blocks end *)

Lemma existsb_find {A} (f : A -> bool) (l : list A) :
  existsb f l = true -> exists x, find f l = Some x.
Proof.
  induction l as [| a l IH]; cbn [existsb find]; [discriminate |].
  destruct (f a); [now exists a | exact IH].
Qed.

(** X12: the block of [signup] is all or nothing.  Either it returns a uid
    that was in no record before and the table has grown by exactly the one
    email-provider record carrying it, or it raises one of the two 400s and
    the table is as it was. *)
Theorem signup_scope_all_or_nothing (request : SignupRequest) (client : Client) (w : World) :
  match signup_scope SupabaseTable request client w with
  | (Ok user_uid, w') =>
      users w' = (users w ++ [new_record w (su_email request) (su_username request)
                                (Some (su_password request)) "email" None])%list /\
      user_uid = fresh_uid (users w) /\
      ~ In user_uid (map rec_user_uid (users w))
  | (Raise e, w') =>
      users w' = users w /\
      (e = HTTPException 400 "Email already registered" \/
       e = HTTPException 400 "Username already taken")
  end.
Proof.
  unfold signup_scope. run_store. cbn [users log].
  destruct (existsb (matches_email (Some (su_email request)) "email") (users w));
    run_store; [now split; [| left] |].
  cbn [users log].
  destruct (existsb (matches_username (su_username request) "email") (users w));
    run_store; [now split; [| right] |].
  cbn [users log set_users]. repeat split. apply fresh_uid_new.
Qed.

(** X13: a login that fails inside the block leaves nothing behind.  The
    error is the 404 or the 401, the only call made on the table is the
    lookup by email, no token was minted and no record was touched. *)
Theorem login_scope_failure_is_clean (request : LoginRequest) (client : Client)
    (w w' : World) (e : PyExn) :
  login_scope request client w = (Raise e, w') ->
  w' = log (EvGetUserCreds (li_email request)) w /\
  (e = HTTPException 404 "User not found" \/ e = HTTPException 401 "Incorrect password").
Proof.
  unfold login_scope. run_store. cbn [users log].
  destruct (find (fun r => String.eqb (rec_email r) (li_email request)) (users w)) as [r |];
    run_store.
  - destruct (verify_password (li_password request) (rec_password r)); run_store;
      intros Hrun; [discriminate |].
    injection Hrun as <- <-. split; [reflexivity | now right].
  - intros Hrun. injection Hrun as <- <-. split; [reflexivity | now left].
Qed.

(** X14: the block of [POST /google] fails exactly when the verified claims
    carry no email.  With an email it returns the uid of a "google" record
    for that email that is in the table afterwards; without one it raises
    [AttributeError] after the one lookup and changes no record. *)
Theorem google_scope_fails_only_without_email (email : option string) (id_info : Dict)
    (client : Client) (w : World) :
  match email with
  | Some e =>
      exists user_uid w' r,
        google_scope email id_info client w = (Ok user_uid, w') /\
        In r (users w') /\ rec_user_uid r = user_uid /\
        rec_email r = e /\ rec_auth_provider r = "google"
  | None =>
      google_scope email id_info client w =
      (Raise (AttributeError "'NoneType' object has no attribute 'split'"),
       log (EvIsEmailExists None "google") w)
  end.
Proof.
  unfold google_scope. destruct email as [e |]; run_store; cbn [users log].
  - destruct (existsb (matches_email (Some e) "google") (users w)) eqn:Hknown; run_store.
    + destruct (existsb_find _ _ Hknown) as [r Hfound]. cbn [users log]. rewrite Hfound.
      run_store. apply find_some in Hfound as [Hin Hmatch].
      unfold matches_email in Hmatch. cbn [opt_string_eqb] in Hmatch.
      apply andb_true_iff in Hmatch as [He Hp].
      apply String.eqb_eq in He, Hp.
      eexists (rec_user_uid r), _, (touch (clock w) (rec_user_uid r) r).
      split; [reflexivity |]. cbn [users log set_users]. split.
      * now apply in_map.
      * unfold touch. rewrite Nat.eqb_refl. cbn. now rewrite He, Hp.
    + eexists _, _, _. split; [reflexivity |]. cbn [users log set_users]. split.
      * apply in_or_app. right. now left.
      * repeat split.
  - now rewrite no_record_without_email.
Qed.

(** *** How the blocks compose *)

Lemma google_scope_known (e : string) (id_info : Dict) (client : Client) (w : World)
    (r : UserRecord) :
  find (matches_email (Some e) "google") (users w) = Some r ->
  exists w',
    google_scope (Some e) id_info client w = (Ok (rec_user_uid r), w') /\
    users w' = map (touch (clock w) (rec_user_uid r)) (users w).
Proof.
  intros Hfound. unfold google_scope. run_store. cbn [users log].
  rewrite (find_some_existsb _ _ _ Hfound). run_store. cbn [users log]. rewrite Hfound.
  run_store. eexists. split; reflexivity.
Qed.

Lemma google_scope_unknown (e : string) (id_info : Dict) (client : Client) (w : World) :
  existsb (matches_email (Some e) "google") (users w) = false ->
  exists w',
    google_scope (Some e) id_info client w = (Ok (fresh_uid (users w)), w') /\
    users w' = (users w ++ [new_record w e (split_head "@" e) None "google"
                              (dict_get id_info "picture")])%list.
Proof.
  intros Hnew. unfold google_scope. run_store. cbn [users log]. rewrite Hnew.
  run_store. eexists. split; reflexivity.
Qed.

(** X15: the block of [POST /google] is idempotent per email.  Run twice
    with the same verified email, whatever the other claims and whether or
    not the email was known, it returns the same uid both times, and the
    second run adds no record and rewrites no credentials. *)
Theorem google_scope_idempotent (e : string) (id_info id_info' : Dict)
    (client client' : Client) (w : World) :
  exists user_uid w1 w2,
    google_scope (Some e) id_info client w = (Ok user_uid, w1) /\
    google_scope (Some e) id_info' client' w1 = (Ok user_uid, w2) /\
    map credentials (users w2) = map credentials (users w1).
Proof.
  destruct (existsb (matches_email (Some e) "google") (users w)) eqn:Hknown.
  - destruct (existsb_find _ _ Hknown) as [r Hfound].
    destruct (google_scope_known e id_info client w r Hfound) as (w1 & Hrun1 & Husers1).
    pose proof (find_touched (Some e) "google" (clock w) (rec_user_uid r) (users w)) as Hsame.
    rewrite Hfound, <- Husers1 in Hsame. cbn [option_map] in Hsame.
    destruct (find (matches_email (Some e) "google") (users w1)) as [r1 |] eqn:Hfound1;
      [| discriminate].
    injection Hsame as Huid.
    destruct (google_scope_known e id_info' client' w1 r1 Hfound1) as (w2 & Hrun2 & Husers2).
    exists (rec_user_uid r), w1, w2. rewrite Huid in Hrun2.
    repeat split; try assumption. rewrite Husers2. apply credentials_touched.
  - destruct (google_scope_unknown e id_info client w Hknown) as (w1 & Hrun1 & Husers1).
    set (r := new_record w e (split_head "@" e) None "google" (dict_get id_info "picture"))
      in Husers1.
    assert (Hfound1 : find (matches_email (Some e) "google") (users w1) = Some r).
    { rewrite Husers1. apply find_appended; [exact Hknown |].
      unfold matches_email, r, new_record. cbn. now rewrite !String.eqb_refl. }
    destruct (google_scope_known e id_info' client' w1 r Hfound1) as (w2 & Hrun2 & Husers2).
    exists (fresh_uid (users w)), w1, w2.
    repeat split; try assumption. rewrite Husers2. apply credentials_touched.
Qed.

Lemma no_email_no_match (e p : string) (us : list UserRecord) :
  existsb (fun r => String.eqb (rec_email r) e) us = false ->
  existsb (matches_email (Some e) p) us = false.
Proof.
  induction us as [| r us IH]; cbn [existsb]; [reflexivity |].
  intros Hnone. apply orb_false_iff in Hnone as [Hr Hus].
  rewrite (IH Hus). unfold matches_email. cbn [opt_string_eqb].
  now rewrite String.eqb_sym, Hr.
Qed.

(** X16: signup then login round-trips.  When no record of any provider has
    the email, the username is free and the verifier accepts a password
    against its own hash, the block of [login] run after the block of
    [signup] with the same email and password returns tokens for exactly the
    uid that signup returned, and both tokens validate to it. *)
Theorem signup_then_login (request : SignupRequest) (client client' : Client) (w : World) :
  existsb (fun r => String.eqb (rec_email r) (su_email request)) (users w) = false ->
  existsb (matches_username (su_username request) "email") (users w) = false ->
  pwd_verify (su_password request) (Some (hash_password (su_password request))) = true ->
  exists user_uid w1 access refresh w2,
    signup_scope SupabaseTable request client w = (Ok user_uid, w1) /\
    login_scope (mkLoginRequest (su_email request) (su_password request)) client' w1
      = (Ok (access, refresh, user_uid), w2) /\
    option_map claim_user_uid
      (match check (clock w2) access with Ok c => Some c | Raise _ => None end)
      = Some user_uid /\
    option_map claim_user_uid
      (match check (clock w2) refresh with Ok c => Some c | Raise _ => None end)
      = Some user_uid.
Proof.
  intros Hemail Hname Hverify.
  set (r := new_record w (su_email request) (su_username request)
              (Some (su_password request)) "email" None).
  set (w1 := mkWorld (users w ++ [r]) (clock w)
               (trace w ++ [EvIsEmailExists (Some (su_email request)) "email";
                            EvIsUsernameExists (su_username request) "email";
                            EvInsertNewUser (fresh_uid (users w))])).
  assert (Hsignup : signup_scope SupabaseTable request client w
                    = (Ok (fresh_uid (users w)), w1)).
  { unfold signup_scope. run_store. cbn [users log].
    rewrite (no_email_no_match _ "email" _ Hemail). run_store. cbn [users log].
    rewrite Hname. run_store. unfold w1, r, new_record. now flat_world. }
  assert (Hfound :
    find (fun r => String.eqb (rec_email r) (su_email request)) (users w1) = Some r).
  { cbn [users w1]. apply find_appended; [exact Hemail |].
    unfold r, new_record. cbn [rec_email]. apply String.eqb_refl. }
  assert (Hgood : verify_password (su_password request) (rec_password r) = true)
    by exact Hverify.
  exists (fresh_uid (users w)), w1.
  unfold login_scope. run_store. cbn [li_email li_password log].
  replace (users (mkWorld (users w1) (clock w1)
                    (trace w1 ++ [EvGetUserCreds (su_email request)])))
    with (users w1) by reflexivity.
  rewrite Hfound. run_store. rewrite Hgood. run_store.
  eexists _, _, _. split; [exact Hsignup |]. split; [reflexivity |].
  cbn [clock log set_users]. rewrite !check_mint_now. split; reflexivity.
Qed.

End AuthRoutes.

(** ** Runs on a concrete deployment

    One user, alice, registered by email with password "pw1"; the toy
    primitives stand for the signature scheme, the hasher and Google. *)

Local Abbreviation alice := (mkUser 1 "a@x.com" "alice" (Some "h(pw1)") "email" None 0).
Local Abbreviation w0 := (mkWorld [alice] 100 []).
Local Abbreviation db_url := "https://db.example".
Local Abbreviation db_key := "anon".
Local Abbreviation run_signup db_client :=
  (signup db_client (SupabaseTable toy_hash)).
Local Abbreviation run_login_via :=
  (login_via "s3cret" 900 604800 toy_sign toy_hash toy_verify).
Local Abbreviation run_login :=
  (login db_url db_key "s3cret" 900 604800 toy_sign toy_hash toy_verify).
Local Abbreviation run_google_via :=
  (continue_with_google_via "cid" "csecret" "s3cret" 900 604800 toy_sign toy_hash
     toy_endpoint toy_google).
Local Abbreviation run_google :=
  (continue_with_google db_url db_key "cid" "csecret" "s3cret" 900 604800 toy_sign
     toy_hash toy_endpoint toy_google).
Local Abbreviation posted code :=
  (EvHttpPost "https://oauth2.googleapis.com/token"
     [("code", code%string); ("client_id", "cid"); ("client_secret", "csecret");
      ("redirect_uri", "postmessage"); ("grant_type", "authorization_code")]).

(** C3 (as the code stands): [POST /login] answers none of the three cases
    of the claim.  An unknown email, a wrong password and the right
    password all end in the [TypeError] of the [with] statement, status 500,
    where the claim has 404, 401 and a token pair. *)
Theorem login_as_written :
  run_login (mkLoginRequest "nobody@x.com" "pw1") w0 = (Raise (TypeError no_protocol), w0) /\
  run_login (mkLoginRequest "a@x.com" "wrong") w0 = (Raise (TypeError no_protocol), w0) /\
  run_login (mkLoginRequest "a@x.com" "pw1") w0 = (Raise (TypeError no_protocol), w0) /\
  http_status 200 (fst (run_login (mkLoginRequest "a@x.com" "pw1") w0)) = 500.
Proof. repeat split. Qed.

(** C4 (as the code stands): [POST /signup] with alice's email and another
    username ends in the [TypeError] of the [with] statement, status 500,
    not in the 400 "Email already registered". *)
Theorem signup_duplicate_email_as_written :
  run_signup (supabase_client db_url db_key) (mkSignupRequest "a@x.com" "bob" "pw2") w0
    = (Raise (TypeError no_protocol), w0) /\
  http_status 201
    (fst (run_signup (supabase_client db_url db_key)
            (mkSignupRequest "a@x.com" "bob" "pw2") w0)) = 500.
Proof. repeat split. Qed.

(** C5 (as the code stands): [POST /signup] with an unused email and an
    unused username ends in the [TypeError] of the [with] statement, status
    500; the table still holds alice alone. *)
Theorem signup_fresh_as_written :
  run_signup (supabase_client db_url db_key) (mkSignupRequest "b@x.com" "bob" "pw2") w0
    = (Raise (TypeError no_protocol), w0) /\
  http_status 201
    (fst (run_signup (supabase_client db_url db_key)
            (mkSignupRequest "b@x.com" "bob" "pw2") w0)) = 500 /\
  users (snd (run_signup (supabase_client db_url db_key)
                (mkSignupRequest "b@x.com" "bob" "pw2") w0)) = [alice].
Proof. repeat split. Qed.

(** C6 (as the code stands): a verified assertion without an email claim.
    The handler has no check of the claim: as written it ends in the
    [TypeError] of the [with] statement; inside an entered scope it asks the
    store whether the email [None] exists and then fails on [None.split]
    with [AttributeError].  Either way the status is 500. *)
Theorem google_missing_email_as_written :
  run_google (mkGoogleOAuthRequest "anon") w0
    = (Raise (TypeError no_protocol), mkWorld [alice] 100 [posted "anon"; EvVerifyOAuth2Token "idt-anon"]) /\
  run_google_via (managed_client db_url db_key tt) (mkGoogleOAuthRequest "anon") w0
    = (Raise (AttributeError "'NoneType' object has no attribute 'split'"),
       mkWorld [alice] 100
         [posted "anon"; EvVerifyOAuth2Token "idt-anon";
          EvCreateClient db_url db_key; EvIsEmailExists None "google"]) /\
  http_status 201 (fst (run_google (mkGoogleOAuthRequest "anon") w0)) = 500.
Proof. repeat split. Qed.

(** C7 (as the code stands): the first Google login of alice@x.com ends in
    the [TypeError] of the [with] statement: no "google" record is created,
    no token is returned, and a second login meets the same table. *)
Theorem google_login_as_written :
  run_google (mkGoogleOAuthRequest "good") w0
    = (Raise (TypeError no_protocol), mkWorld [alice] 100 [posted "good"; EvVerifyOAuth2Token "idt-alice"]) /\
  users (snd (run_google (mkGoogleOAuthRequest "good")
                (snd (run_google (mkGoogleOAuthRequest "good") w0)))) = [alice].
Proof. repeat split. Qed.

(** *** The same requests inside an entered scope *)

(** The end-to-end scenario of the spec, with the client factory wrapped by
    [contextmanager]: signup creates uid 1, login with the right password
    returns tokens that validate to uid 1, a wrong password gets 401. *)
Example managed_end_to_end :
  let fresh := mkWorld [] 100 [] in
  let signed_up :=
    run_signup (managed_client db_url db_key) (mkSignupRequest "a@x.com" "alice" "pw1") fresh in
  let logged_in :=
    run_login_via (managed_client db_url db_key tt) (mkLoginRequest "a@x.com" "pw1")
      (snd signed_up) in
  fst signed_up = Ok (mkSignupResponse 1) /\
  users (snd signed_up) = [mkUser 1 "a@x.com" "alice" (Some "h(pw1)") "email" None 100] /\
  option_map at_user_uid
    (match fst logged_in with Ok r => Some r | Raise _ => None end) = Some 1 /\
  (access <- (fun w => (match fst logged_in with
                        | Ok r => Ok (access_token r)
                        | Raise e => Raise e
                        end, w)) ;;
   verify_token "s3cret" toy_sign (mkVerificationRequest access)) (snd logged_in)
    = (Ok (mkVerificationResponse 1), snd logged_in) /\
  fst (run_login_via (managed_client db_url db_key tt) (mkLoginRequest "a@x.com" "wrong")
         (snd signed_up))
    = Raise (HTTPException 401 "Incorrect password").
Proof. repeat split. Qed.

Example managed_google_twice :
  let first :=
    run_google_via (managed_client db_url db_key tt) (mkGoogleOAuthRequest "good") w0 in
  let second :=
    run_google_via (managed_client db_url db_key tt) (mkGoogleOAuthRequest "good")
      (snd first) in
  users (snd first) =
    [alice; mkUser 2 "alice@x.com" "alice" None "google" (Some "http://pic/alice") 100] /\
  users (snd second) = users (snd first) /\
  option_map at_user_uid (match fst first with Ok r => Some r | Raise _ => None end) = Some 2 /\
  option_map at_user_uid (match fst second with Ok r => Some r | Raise _ => None end) = Some 2.
Proof. repeat split. Qed.

(** ** Instances of the conditional theorems *)

Lemma refresh_token_echoes_witness :
  validate_token "s3cret" toy_sign (mint "s3cret" toy_sign 0 604800 7) (mkWorld [] 10 [])
    = (Ok (mkClaims 7 604800), mkWorld [] 10 []) /\
  refresh_token "s3cret" 900 toy_sign
    (mkRefreshRequest (mint "s3cret" toy_sign 0 604800 7)) (mkWorld [] 10 [])
    = (Ok (mkAuthTokenResponse (mint "s3cret" toy_sign 10 900 7)
             (mint "s3cret" toy_sign 0 604800 7) 7),
       mkWorld [] 10 [EvCreateAccessToken 7]).
Proof.
  split; [reflexivity |].
  exact (proj1 (refresh_token_echoes "s3cret" 900 toy_sign
                  (mint "s3cret" toy_sign 0 604800 7) 7 604800 (mkWorld [] 10 [])
                  eq_refl)).
Defined.

Lemma continue_with_google_exchange_failed_witness :
  exchange_succeeds "cid" "csecret" toy_endpoint (mkGoogleOAuthRequest "down") = false /\
  exists e w',
    run_google (mkGoogleOAuthRequest "down") w0 = (Raise e, w') /\
    provider_exchange_failed e = true /\
    users w' = users w0 /\
    trace w' = (trace w0 ++ [posted "down"])%list.
Proof.
  split; [reflexivity |].
  apply (continue_with_google_exchange_failed db_url db_key "cid" "csecret" "s3cret"
           900 604800 toy_sign toy_hash toy_endpoint toy_google
           (mkGoogleOAuthRequest "down") w0).
  reflexivity.
Defined.

Lemma auth_module_backend_switch_witness :
  Some "sqlite" <> Some "supabase" /\
  auth_module db_url db_key toy_hash (Some "sqlite")
    = (Raise (UnknownDatabaseProvider "Unknown database provider: sqlite"),
       empty_namespace) /\
  fst (auth_module db_url db_key toy_hash (Some "supabase")) = Ok tt.
Proof.
  split; [discriminate |]. split.
  - apply (proj1 (auth_module_backend_switch db_url db_key toy_hash (Some "sqlite"))).
    discriminate.
  - apply (proj2 (auth_module_backend_switch db_url db_key toy_hash (Some "supabase"))).
    reflexivity.
Defined.

Lemma google_missing_id_token_witness :
  dict_get [("access_token", "at")] "id_token" = None /\
  continue_with_google db_url db_key "cid" "csecret" "s3cret" 900 604800 toy_sign toy_hash
    (fun _ _ => Responded 200 (Some [("access_token", "at")])) toy_google
    (mkGoogleOAuthRequest "good") w0
  = (Raise (HTTPException 400 "Missing id_token in response."),
     mkWorld [alice] 100 [posted "good"]).
Proof.
  split; [reflexivity |].
  apply (google_missing_id_token db_url db_key "cid" "csecret" "s3cret" 900 604800
           toy_sign toy_hash (fun _ _ => Responded 200 (Some [("access_token", "at")]))
           toy_google (mkGoogleOAuthRequest "good") w0 200 [("access_token", "at")]);
    [reflexivity | reflexivity | left; reflexivity].
Defined.

Lemma google_assertion_rejected_witness :
  toy_endpoint "https://oauth2.googleapis.com/token"
    (token_request_data "cid" "csecret" (mkGoogleOAuthRequest "good"))
    = Responded 200 (Some [("id_token", "idt-alice")]) /\
  continue_with_google db_url db_key "cid" "csecret" "s3cret" 900 604800 toy_sign toy_hash
    toy_endpoint (fun _ _ => None) (mkGoogleOAuthRequest "good") w0
  = (Raise ValueError,
     mkWorld [alice] 100 [posted "good"; EvVerifyOAuth2Token "idt-alice"]).
Proof.
  split; [reflexivity |].
  apply (google_assertion_rejected db_url db_key "cid" "csecret" "s3cret" 900 604800
           toy_sign toy_hash toy_endpoint (fun _ _ => None)
           (mkGoogleOAuthRequest "good") w0 200 [("id_token", "idt-alice")] "idt-alice");
    reflexivity.
Defined.

Lemma google_verified_login_raises_witness :
  toy_google "idt-alice" "cid"
    = Some [("email", "alice@x.com"); ("picture", "http://pic/alice")] /\
  run_google (mkGoogleOAuthRequest "good") w0
  = (Raise (TypeError no_protocol),
     mkWorld [alice] 100 [posted "good"; EvVerifyOAuth2Token "idt-alice"]).
Proof.
  split; [reflexivity |].
  apply (google_verified_login_raises db_url db_key "cid" "csecret" "s3cret" 900 604800
           toy_sign toy_hash toy_endpoint toy_google
           (mkGoogleOAuthRequest "good") w0 200 [("id_token", "idt-alice")]
           [("email", "alice@x.com"); ("picture", "http://pic/alice")] "idt-alice");
    reflexivity.
Defined.

Lemma split_head_without_separator_witness :
  forallb (fun c => negb (Ascii.eqb c "@")) (list_ascii_of_string "alice") = true /\
  split_head "@" "alice" = "alice".
Proof.
  split; [reflexivity |].
  apply (split_head_without_separator "@" "alice"). reflexivity.
Defined.

Lemma token_routes_propagate_rejection_witness :
  validate_token "s3cret" toy_sign (Unparseable "garbage") w0
    = (Raise (TokenError MalformedToken), w0) /\
  verify_token "s3cret" toy_sign (mkVerificationRequest (Unparseable "garbage")) w0
    = (Raise (TokenError MalformedToken), w0) /\
  refresh_token "s3cret" 900 toy_sign (mkRefreshRequest (Unparseable "garbage")) w0
    = (Raise (TokenError MalformedToken), w0).
Proof.
  split; [reflexivity |].
  apply (token_routes_propagate_rejection "s3cret" 900 toy_sign (Unparseable "garbage")
           (TokenError MalformedToken) w0 w0).
  reflexivity.
Defined.

Lemma signup_scope_keeps_unique_witness :
  unique_accounts [alice] /\
  unique_accounts
    (users (snd (signup_scope (SupabaseTable toy_hash)
                   (mkSignupRequest "b@x.com" "bob" "pw2") (mkClient db_url db_key) w0))).
Proof.
  assert (Halice : unique_accounts [alice])
    by (repeat split; (constructor; [intros [] | constructor])).
  split; [exact Halice |].
  exact (signup_scope_keeps_unique toy_hash (mkSignupRequest "b@x.com" "bob" "pw2")
           (mkClient db_url db_key) w0 Halice).
Defined.

Lemma google_scope_keeps_unique_witness :
  unique_accounts [alice] /\
  unique_accounts
    (users (snd (google_scope toy_hash (Some "alice@x.com")
                   [("email", "alice@x.com")] (mkClient db_url db_key) w0))).
Proof.
  assert (Halice : unique_accounts [alice])
    by (repeat split; (constructor; [intros [] | constructor])).
  split; [exact Halice |].
  exact (google_scope_keeps_unique toy_hash (Some "alice@x.com") [("email", "alice@x.com")]
           (mkClient db_url db_key) w0 Halice).
Defined.

Lemma login_scope_failure_is_clean_witness :
  login_scope "s3cret" 900 604800 toy_sign toy_hash toy_verify
    (mkLoginRequest "a@x.com" "wrong") (mkClient db_url db_key) w0
    = (Raise (HTTPException 401 "Incorrect password"),
       mkWorld [alice] 100 [EvGetUserCreds "a@x.com"]) /\
  mkWorld [alice] 100 [EvGetUserCreds "a@x.com"] = log (EvGetUserCreds "a@x.com") w0.
Proof.
  split; [reflexivity |].
  apply (login_scope_failure_is_clean "s3cret" 900 604800 toy_sign toy_hash toy_verify
           (mkLoginRequest "a@x.com" "wrong") (mkClient db_url db_key) w0
           (mkWorld [alice] 100 [EvGetUserCreds "a@x.com"])
           (HTTPException 401 "Incorrect password")).
  reflexivity.
Defined.

Lemma signup_then_login_witness :
  toy_verify "pw2" (Some (toy_hash "pw2")) = true /\
  exists user_uid w1 access refresh w2,
    signup_scope (SupabaseTable toy_hash) (mkSignupRequest "b@x.com" "bob" "pw2")
      (mkClient db_url db_key) w0 = (Ok user_uid, w1) /\
    login_scope "s3cret" 900 604800 toy_sign toy_hash toy_verify
      (mkLoginRequest "b@x.com" "pw2") (mkClient db_url db_key) w1
      = (Ok (access, refresh, user_uid), w2) /\
    option_map claim_user_uid
      (match check "s3cret" toy_sign (clock w2) access with
       | Ok c => Some c
       | Raise _ => None
       end) = Some user_uid /\
    option_map claim_user_uid
      (match check "s3cret" toy_sign (clock w2) refresh with
       | Ok c => Some c
       | Raise _ => None
       end) = Some user_uid.
Proof.
  split; [reflexivity |].
  apply (signup_then_login "s3cret" 900 604800 toy_sign toy_hash toy_verify
           (mkSignupRequest "b@x.com" "bob" "pw2") (mkClient db_url db_key)
           (mkClient db_url db_key) w0); reflexivity.
Defined.


Lemma google_undecodable_body_witness :
  is_success 200 = true /\
  continue_with_google db_url db_key "cid" "csecret" "s3cret" 900 604800 toy_sign toy_hash
    (fun _ _ => Responded 200 None) toy_google (mkGoogleOAuthRequest "good") w0
  = (Raise JSONDecodeError, mkWorld [alice] 100 [posted "good"]).
Proof.
  split; [reflexivity |].
  apply (google_undecodable_body db_url db_key "cid" "csecret" "s3cret" 900 604800
           toy_sign toy_hash (fun _ _ => Responded 200 None) toy_google
           (mkGoogleOAuthRequest "good") w0 200); reflexivity.
Defined.
